(** * Art-O-Mathics front-end (KolamAI/static/main.js): shallow embedding

    The browser page is modelled as an explicit world record threaded through
    the handlers of main.js: the shared pattern record [kolamData], the
    process-wide [animationState], the canvas (as a log of drawing calls),
    the pending animation-frame callbacks of the browser, and the
    user-visible effects (alerts, downloads, network requests).

    Numbers: timestamps, speed and point coordinates are JS doubles; they
    are modelled as rationals [Q].  The numeric fields of the pattern record
    that the file only interpolates into strings (dimensions, domain,
    r_squared) are kept as their JS [ToString] rendering. *)

From Stdlib Require Import List String ZArith QArith Lia.
From Stdlib Require Import DecimalString Lqa.
Import ListNotations.
Open Scope string_scope.
Set Warnings "-register-all".

(** ** Data model *)

Definition point : Type := (Q * Q)%type.
Definition path : Type := list point.

Record grid_t := mkGrid {
  grid_type : string;
  dimensions : string * string;
  dots : list point
}.

Record equations_t := mkEquations {
  x_function : string;
  y_function : string;
  domain : string * string;
  r_squared : string
}.

(** The Pattern Record returned by [/analyze]. *)
Record pattern := mkPattern {
  id : string;
  type : string;
  symmetry : string;
  complexity : string;
  grid : grid_t;
  equations : equations_t;
  paths : list path
}.

(** Text of the [playIcon] element. *)
Inductive glyph := PlayGlyph (* '▶', shown while paused *) | PauseGlyph (* '⏸' *).

(** Canvas 2D drawing calls, in the order they are issued. *)
Inductive drawop :=
| FillRect (color : string)                           (* whole canvas *)
| Disk (center : point) (radius : nat) (color : string)
| Segment (start end_ : point) (stroke : string) (width : nat) (glow : string).

(** JSON values sent in request bodies. *)
Inductive json :=
| JNum (q : Q)
| JArr (l : list json)
| JObj (fields : list (string * json)).

Inductive req_body :=
| FormImage (file : string)       (* multipart form, field 'image' *)
| JsonBody (j : json).

Inductive effect :=
| Alert (msg : string)
| ConsoleError (msg : string)
| Request (url : string) (body : req_body)
| Download (filename : string) (contents : string) (mime : string).

Record world := mkWorld {
  kolamData : option pattern;
  (* animationState *)
  isPlaying : bool;
  currentPathIndex : nat;
  currentPointIndex : nat;
  speed : Q;
  animationId : option nat;            (* null or a frame handle *)
  lastFrameTime : Q;
  (* DOM *)
  ctxPresent : bool;                   (* canvas ? canvas.getContext('2d') : null *)
  playIcon : glyph;
  uploadStatusHidden : bool;
  resultsActive : bool;                (* resultsScreen has class 'active' *)
  canvasOps : list drawop;
  effects : list effect;
  (* browser: requestAnimationFrame bookkeeping *)
  pending : list nat;                  (* scheduled, neither run nor cancelled *)
  nextHandle : nat
}.

(** Initial page state (top of main.js), with or without a canvas. *)
Definition initial_world (has_ctx : bool) : world :=
  mkWorld None false 0 0 1 None 0 has_ctx PlayGlyph true false [] [] [] 1.

(** ** Record updates *)

Definition set_playing (b : bool) (w : world) : world :=
  mkWorld w.(kolamData) b w.(currentPathIndex) w.(currentPointIndex) w.(speed)
    w.(animationId) w.(lastFrameTime) w.(ctxPresent) w.(playIcon)
    w.(uploadStatusHidden) w.(resultsActive) w.(canvasOps) w.(effects)
    w.(pending) w.(nextHandle).

Definition set_cursors (pi qi : nat) (w : world) : world :=
  mkWorld w.(kolamData) w.(isPlaying) pi qi w.(speed)
    w.(animationId) w.(lastFrameTime) w.(ctxPresent) w.(playIcon)
    w.(uploadStatusHidden) w.(resultsActive) w.(canvasOps) w.(effects)
    w.(pending) w.(nextHandle).

Definition set_speed (s : Q) (w : world) : world :=
  mkWorld w.(kolamData) w.(isPlaying) w.(currentPathIndex) w.(currentPointIndex) s
    w.(animationId) w.(lastFrameTime) w.(ctxPresent) w.(playIcon)
    w.(uploadStatusHidden) w.(resultsActive) w.(canvasOps) w.(effects)
    w.(pending) w.(nextHandle).

Definition set_lastFrameTime (t : Q) (w : world) : world :=
  mkWorld w.(kolamData) w.(isPlaying) w.(currentPathIndex) w.(currentPointIndex) w.(speed)
    w.(animationId) t w.(ctxPresent) w.(playIcon)
    w.(uploadStatusHidden) w.(resultsActive) w.(canvasOps) w.(effects)
    w.(pending) w.(nextHandle).

Definition set_playIcon (g : glyph) (w : world) : world :=
  mkWorld w.(kolamData) w.(isPlaying) w.(currentPathIndex) w.(currentPointIndex) w.(speed)
    w.(animationId) w.(lastFrameTime) w.(ctxPresent) g
    w.(uploadStatusHidden) w.(resultsActive) w.(canvasOps) w.(effects)
    w.(pending) w.(nextHandle).

Definition draw (ops : list drawop) (w : world) : world :=
  mkWorld w.(kolamData) w.(isPlaying) w.(currentPathIndex) w.(currentPointIndex) w.(speed)
    w.(animationId) w.(lastFrameTime) w.(ctxPresent) w.(playIcon)
    w.(uploadStatusHidden) w.(resultsActive) (w.(canvasOps) ++ ops) w.(effects)
    w.(pending) w.(nextHandle).

Definition emit (es : list effect) (w : world) : world :=
  mkWorld w.(kolamData) w.(isPlaying) w.(currentPathIndex) w.(currentPointIndex) w.(speed)
    w.(animationId) w.(lastFrameTime) w.(ctxPresent) w.(playIcon)
    w.(uploadStatusHidden) w.(resultsActive) w.(canvasOps) (w.(effects) ++ es)
    w.(pending) w.(nextHandle).

Definition set_kolamData (d : option pattern) (w : world) : world :=
  mkWorld d w.(isPlaying) w.(currentPathIndex) w.(currentPointIndex) w.(speed)
    w.(animationId) w.(lastFrameTime) w.(ctxPresent) w.(playIcon)
    w.(uploadStatusHidden) w.(resultsActive) w.(canvasOps) w.(effects)
    w.(pending) w.(nextHandle).

Definition set_uploadStatusHidden (b : bool) (w : world) : world :=
  mkWorld w.(kolamData) w.(isPlaying) w.(currentPathIndex) w.(currentPointIndex) w.(speed)
    w.(animationId) w.(lastFrameTime) w.(ctxPresent) w.(playIcon)
    b w.(resultsActive) w.(canvasOps) w.(effects)
    w.(pending) w.(nextHandle).

Definition set_resultsActive (b : bool) (w : world) : world :=
  mkWorld w.(kolamData) w.(isPlaying) w.(currentPathIndex) w.(currentPointIndex) w.(speed)
    w.(animationId) w.(lastFrameTime) w.(ctxPresent) w.(playIcon)
    w.(uploadStatusHidden) b w.(canvasOps) w.(effects)
    w.(pending) w.(nextHandle).

(** ** Browser animation frames *)

(** [animationState.animationId = requestAnimationFrame(animate)] *)
Definition requestAnimationFrame (w : world) : world :=
  let h := w.(nextHandle) in
  mkWorld w.(kolamData) w.(isPlaying) w.(currentPathIndex) w.(currentPointIndex) w.(speed)
    (Some h) w.(lastFrameTime) w.(ctxPresent) w.(playIcon)
    w.(uploadStatusHidden) w.(resultsActive) w.(canvasOps) w.(effects)
    (w.(pending) ++ [h]) (S h).

Definition remove_pending (h : nat) (w : world) : world :=
  mkWorld w.(kolamData) w.(isPlaying) w.(currentPathIndex) w.(currentPointIndex) w.(speed)
    w.(animationId) w.(lastFrameTime) w.(ctxPresent) w.(playIcon)
    w.(uploadStatusHidden) w.(resultsActive) w.(canvasOps) w.(effects)
    (remove Nat.eq_dec h w.(pending)) w.(nextHandle).

Definition cancelAnimationFrame (h : nat) (w : world) : world := remove_pending h w.

(** [if (animationState.animationId) cancelAnimationFrame(animationState.animationId)]:
    null and the handle 0 are falsy. *)
Definition cancel_tracked (w : world) : world :=
  match w.(animationId) with
  | Some h => if Nat.eqb h 0 then w else cancelAnimationFrame h w
  | None => w
  end.

(** ** Canvas renderer *)

(** [drawGridDots]: a disk of radius 4 per grid dot (no-op without a record). *)
Definition drawGridDots (w : world) : world :=
  match w.(kolamData) with
  | None => w
  | Some k => draw (map (fun d => Disk d 4 "#FF6347") k.(grid).(dots)) w
  end.

(** [initializeCanvas]: clear, dots, reset cursors, paused, '▶'. *)
Definition initializeCanvas (w : world) : world :=
  if negb w.(ctxPresent) then w
  else
    let w := draw [FillRect "#000"] w in
    let w := drawGridDots w in
    let w := set_cursors 0 0 w in
    let w := set_playing false w in
    set_playIcon PlayGlyph w.

(** ** Animation loop *)

Definition frameDelay : Q := 50.

(** Extended result of the JS division [frameDelay / speed]: a finite
    quotient, or [Infinity] when the speed is zero (50 / 0 in IEEE). *)
Inductive delay := Finite (q : Q) | PosInfinity.

Definition adjusted_delay (s : Q) : delay :=
  if Qeq_bool s 0 then PosInfinity else Finite (frameDelay / s).

(** [x < d] for a finite [x]. *)
Definition lt_delay (x : Q) (d : delay) : bool :=
  match d with
  | Finite q => negb (Qle_bool q x)
  | PosInfinity => true
  end.

(** The throttle test of [animate]: [timestamp - lastFrameTime < adjustedDelay]. *)
Definition throttled (t : Q) (w : world) : bool :=
  lt_delay (t - w.(lastFrameTime)) (adjusted_delay w.(speed)).

(** Animation complete: [isPlaying = false], icon '▶', no reschedule. *)
Definition complete (w : world) : world :=
  set_playIcon PlayGlyph (set_playing false w).

(** [animate(timestamp)].  A [TypeError] (reading [kolamData.paths] with no
    record, or drawing with a null context) aborts the callback: the world is
    then the one reached before the throwing statement. *)
Definition animate (t : Q) (w : world) : world :=
  if negb w.(isPlaying) then w
  else if throttled t w then requestAnimationFrame w
  else
    let w := set_lastFrameTime t w in
    match w.(kolamData) with
    | None => w
    | Some k =>
      let ps := k.(paths) in
      match nth_error ps w.(currentPathIndex) with
      | None => complete w
      | Some currentPath =>
        if (Z.of_nat w.(currentPointIndex) <? Z.of_nat (List.length currentPath) - 1)%Z then
          if negb w.(ctxPresent) then w
          else
            let start := nth w.(currentPointIndex) currentPath (0, 0)%Q in
            let end_ := nth (S w.(currentPointIndex)) currentPath (0, 0)%Q in
            let w := draw [Segment start end_ "#fff" 3 "#FFA500";
                           Disk end_ 6 "#FF6347"] w in
            let w := set_cursors w.(currentPathIndex) (S w.(currentPointIndex)) w in
            requestAnimationFrame w
        else
          let w := set_cursors (S w.(currentPathIndex)) 0 w in
          if Nat.leb (List.length ps) w.(currentPathIndex) then complete w
          else requestAnimationFrame w
      end
    end.

(** A pending frame callback [h] runs at time [t]. *)
Definition run_frame (h : nat) (t : Q) (w : world) : world :=
  if existsb (Nat.eqb h) w.(pending) then animate t (remove_pending h w) else w.

(** ** Playback controls *)

(** [togglePlayPause]; [animate()] is called with its default timestamp 0. *)
Definition togglePlayPause (w : world) : world :=
  let w := set_playing (negb w.(isPlaying)) w in
  if w.(isPlaying) then animate 0 (set_playIcon PauseGlyph w)
  else cancel_tracked (set_playIcon PlayGlyph w).

(** [resetAnimation] *)
Definition resetAnimation (w : world) : world :=
  let w := cancel_tracked w in
  let w := set_playing false w in
  let w := set_cursors 0 0 w in
  let w := set_playIcon PlayGlyph w in
  initializeCanvas w.

(** speed slider 'input' handler: [animationState.speed = parseFloat(value)]. *)
Definition onSpeedInput (v : Q) (w : world) : world := set_speed v w.

(** ** Upload controller and results presenter *)

(** [ '...' + x ] for a JSON field that may be absent ([undefined]). *)
Definition js_str (o : option string) : string :=
  match o with Some s => s | None => "undefined" end.

(** Parsed body of a [/analyze] response. *)
Record analyze_result := mkAnalyzeResult {
  a_success : bool;
  a_data : option pattern;
  a_error : option string
}.

(** [displayResults]: switches screens, fills the read-only text fields (DOM
    text not modelled), then [initializeCanvas].  Reading [kolamData.type]
    with no record throws after the screen switch ([inr]). *)
Definition displayResults (w : world) : world + world :=
  let w := set_resultsActive true w in
  match w.(kolamData) with
  | None => inr w
  | Some _ => inl (initializeCanvas w)
  end.

(** The [catch] block of [handleFileUpload]. *)
Definition upload_catch (w : world) : world :=
  set_uploadStatusHidden true
    (emit [ConsoleError "Upload error:";
           Alert "Failed to connect to server. Make sure the Flask backend is running on port 5000."] w).

(** [handleFileUpload(file)] up to the [await fetch]: status banner shown, one
    multipart request. *)
Definition handleFileUpload (file : string) (w : world) : world :=
  emit [Request "http://localhost:5000/analyze" (FormImage file)]
    (set_uploadStatusHidden false w).

(** The rest of [handleFileUpload], once the response arrives: [None] is a
    rejected [fetch] or a [response.json()] parse failure. *)
Definition handleFileUpload_response (r : option analyze_result) (w : world) : world :=
  match r with
  | None => upload_catch w
  | Some result =>
    if result.(a_success) then
      match displayResults (set_kolamData result.(a_data) w) with
      | inl w' => w'
      | inr w' => upload_catch w'
      end
    else
      set_uploadStatusHidden true
        (emit [Alert ("Error analyzing image: " ++ js_str result.(a_error))] w)
  end.

(** ** Export actions *)

Definition json_of_point (p : point) : json := JArr [JNum (fst p); JNum (snd p)].

Definition json_of_points (ps : list point) : json := JArr (map json_of_point ps).

(** [JSON.stringify({ paths: kolamData.paths, grid_dots: kolamData.grid.dots })] *)
Definition export_body (k : pattern) : json :=
  JObj [("paths", JArr (map json_of_points k.(paths)));
        ("grid_dots", json_of_points k.(grid).(dots))].

Record svg_result := mkSvgResult {
  s_success : bool;
  s_svg : option string;
  s_error : option string
}.

(** [exportSVG()] up to the [await fetch]. *)
Definition exportSVG (w : world) : world :=
  match w.(kolamData) with
  | None => w
  | Some k =>
    emit [Request "http://localhost:5000/export-svg" (JsonBody (export_body k))] w
  end.

Definition export_catch (w : world) : world :=
  emit [ConsoleError "Export error:"; Alert "Failed to export SVG"] w.

(** The rest of [exportSVG()] once the response arrives.  The handler reads
    the shared [kolamData] again for the file name: with no record live at
    that point, [kolamData.id] throws before the download. *)
Definition exportSVG_response (r : option svg_result) (w : world) : world :=
  match r with
  | None => export_catch w
  | Some result =>
    if result.(s_success) then
      match w.(kolamData) with
      | None => export_catch w
      | Some k =>
        emit [Download ("kolam_" ++ k.(id) ++ ".svg") (js_str result.(s_svg)) "image/svg+xml";
              Alert "SVG exported successfully!"] w
      end
    else emit [Alert ("Export failed: " ++ js_str result.(s_error))] w
  end.

Definition nl : string := String (Ascii.ascii_of_nat 10) "".

Definition js_nat (n : nat) : string := NilZero.string_of_uint (Nat.to_uint n).

(** The text template of [saveEquation]; [now] is
    [new Date().toLocaleString()]. *)
Definition equationData (now : string) (k : pattern) : string :=
  "Kolam Pattern Equations" ++ nl ++
  "========================" ++ nl ++
  "Pattern ID: " ++ k.(id) ++ nl ++
  "Type: " ++ k.(type) ++ nl ++
  "Complexity: " ++ k.(complexity) ++ nl ++
  "Symmetry: " ++ k.(symmetry) ++ nl ++
  nl ++
  "Parametric Equations:" ++ nl ++
  "x(t) = " ++ k.(equations).(x_function) ++ nl ++
  "y(t) = " ++ k.(equations).(y_function) ++ nl ++
  nl ++
  "Domain: [" ++ fst k.(equations).(domain) ++ ", " ++ snd k.(equations).(domain) ++ "]" ++ nl ++
  "R² = " ++ k.(equations).(r_squared) ++ nl ++
  nl ++
  "Grid Configuration:" ++ nl ++
  "Type: " ++ k.(grid).(grid_type) ++ nl ++
  "Dimensions: " ++ fst k.(grid).(dimensions) ++ " × " ++ snd k.(grid).(dimensions) ++ nl ++
  "Total Points: " ++ js_nat (List.length k.(grid).(dots)) ++ nl ++
  nl ++
  "Generated: " ++ now ++ nl.

(** [saveEquation()] *)
Definition saveEquation (now : string) (w : world) : world :=
  match w.(kolamData) with
  | None => w
  | Some k =>
    emit [Download ("kolam_equations_" ++ k.(id) ++ ".txt") (equationData now k) "text/plain";
          Alert "Equation file saved successfully!"] w
  end.

(** [resetApp()] (the file input's value is not modelled). *)
Definition resetApp (w : world) : world :=
  let w := cancel_tracked w in
  let w := set_playing false w in
  let w := set_cursors 0 0 w in
  let w := set_kolamData None w in
  let w := set_resultsActive false w in
  set_uploadStatusHidden true w.

(** ** Page events *)

Inductive event :=
| EvFrame (h : nat) (t : Q)                 (* pending frame [h] runs at [t] *)
| EvTogglePlayPause
| EvResetAnimation
| EvSpeedInput (v : Q)
| EvUpload (file : string)
| EvUploadResponse (r : option analyze_result)
| EvExportSVG
| EvExportSVGResponse (r : option svg_result)
| EvSaveEquation (now : string)
| EvResetApp.

Definition handle (e : event) (w : world) : world :=
  match e with
  | EvFrame h t => run_frame h t w
  | EvTogglePlayPause => togglePlayPause w
  | EvResetAnimation => resetAnimation w
  | EvSpeedInput v => onSpeedInput v w
  | EvUpload f => handleFileUpload f w
  | EvUploadResponse r => handleFileUpload_response r w
  | EvExportSVG => exportSVG w
  | EvExportSVGResponse r => exportSVG_response r w
  | EvSaveEquation now => saveEquation now w
  | EvResetApp => resetApp w
  end.

Fixpoint run (es : list event) (w : world) : world :=
  match es with
  | [] => w
  | e :: es => run es (handle e w)
  end.

(** Steps of the animation loop and of the playback controls. *)
Inductive anim_step : world -> world -> Prop :=
| AnimFrame (h : nat) (t : Q) (w : world) :
    In h w.(pending) -> anim_step w (run_frame h t w)
| AnimToggle (w : world) : anim_step w (togglePlayPause w)
| AnimReset (w : world) : anim_step w (resetAnimation w)
| AnimSpeed (v : Q) (w : world) : anim_step w (onSpeedInput v w).

Inductive anim_reachable (w0 : world) : world -> Prop :=
| AnimStart : anim_reachable w0 w0
| AnimNext (w w' : world) : anim_reachable w0 w -> anim_step w w' -> anim_reachable w0 w'.

(** The cursor bounds as the data model of the spec states them. *)
Definition cursor_bounds_as_stated (k : pattern) (w : world) : Prop :=
  (w.(currentPathIndex) <= List.length k.(paths))%nat
  /\ (forall cp, nth_error k.(paths) w.(currentPathIndex) = Some cp ->
        (0 <= Z.of_nat w.(currentPointIndex) <= Z.of_nat (List.length cp) - 1)%Z).

(** The bounds kept by the loop. *)
Definition cursor_inv (k : pattern) (i p : nat) : Prop :=
  (i <= List.length k.(paths))%nat
  /\ (i = List.length k.(paths) -> p = 0%nat)
  /\ (forall cp, nth_error k.(paths) i = Some cp -> p = 0%nat \/ (p < List.length cp)%nat).

Definition anim_inv (k : pattern) (w : world) : Prop :=
  w.(kolamData) = Some k /\ cursor_inv k w.(currentPathIndex) w.(currentPointIndex).

(** ** Sample inputs *)

Definition sample_equations : equations_t := mkEquations "sin(t)" "cos(t)" ("0", "6.28") "0.98".
Definition sample_grid : grid_t := mkGrid "square" ("3", "3") [(1, 1)%Q; (2, 1)%Q].

(** The record of the spec's test: [paths = [[[0,0],[10,0]], [[5,5]]]]. *)
Definition sample_pattern : pattern :=
  mkPattern "abc123" "loop" "4-fold" "low" sample_grid sample_equations
    [[(0, 0)%Q; (10, 0)%Q]; [(5, 5)%Q]].

Definition sample_ok : analyze_result := mkAnalyzeResult true (Some sample_pattern) None.

(** The page after one successful analysis and a play click. *)
Definition sample_playing : world :=
  run [EvUpload "kolam.png"; EvUploadResponse (Some sample_ok); EvTogglePlayPause]
      (initial_world true).

Definition sample_ok_b : analyze_result :=
  mkAnalyzeResult true
    (Some (mkPattern "def456" "loop" "2-fold" "low" sample_grid sample_equations
             [[(1, 1)%Q; (2, 2)%Q; (3, 1)%Q]])) None.

(** Two uploads in flight; the second result arrives while the first record
    is being played, and play is clicked again before the frame scheduled
    earlier has run. *)
Definition racing_uploads : world :=
  run [EvUpload "a.png"; EvUpload "b.png";
       EvUploadResponse (Some sample_ok); EvTogglePlayPause;
       EvUploadResponse (Some sample_ok_b); EvTogglePlayPause]
      (initial_world true).

(** A record whose only path has no points, freshly displayed. *)
Definition empty_path_pattern : pattern :=
  mkPattern "e0" "loop" "none" "low" sample_grid sample_equations [[]].

Definition empty_path_start : world :=
  initializeCanvas (set_kolamData (Some empty_path_pattern) (initial_world true)).

(** The sample played to completion (frames 1, 2, 3 accepted). *)
Definition sample_complete : world :=
  run [EvFrame 1 100; EvFrame 2 200; EvFrame 3 300] sample_playing.

(** The playing sample with the speed set to -1. *)
Definition sample_negative_speed : world := onSpeedInput (-1) sample_playing.

(** The displayed sample: an SVG export is sent, then the app is reset
    before the response arrives. *)
Definition export_then_reset_app : world :=
  run [EvExportSVG; EvResetApp] sample_playing.

(** ** Upload wiring ([initializeUpload]) *)

(** A browser [File]: its name and MIME type. *)
Record file_t := mkFile { file_name : string; file_type : string }.

(** The 'drop' listener: the first dropped file is uploaded when its type
    starts with 'image/' (the 'drag-over' class is not modelled). *)
Definition onDrop (files : list file_t) (w : world) : world :=
  match files with
  | f :: _ => if String.prefix "image/" f.(file_type) then handleFileUpload f.(file_name) w else w
  | [] => w
  end.

(** The file input's 'change' listener: the first chosen file is uploaded. *)
Definition onFileInputChange (files : list file_t) (w : world) : world :=
  match files with
  | f :: _ => handleFileUpload f.(file_name) w
  | [] => w
  end.

(** ** Whole playback *)







(** ** Frame handles *)

(** Bookkeeping of the scheduled frames: no handle is pending twice, and
    every pending or recorded handle is a positive number below the next one
    the browser hands out. *)
Definition handles_ok (w : world) : Prop :=
  (1 <= w.(nextHandle))%nat
  /\ NoDup w.(pending)
  /\ (forall h, In h w.(pending) -> (1 <= h < w.(nextHandle))%nat)
  /\ (forall h, w.(animationId) = Some h -> (1 <= h < w.(nextHandle))%nat).

(** ** Basic facts about the embedding *)

Lemma adjusted_delay_pos (s : Q) :
  0 < s -> adjusted_delay s = Finite (frameDelay / s).
Proof.
  intros Hs. unfold adjusted_delay.
  destruct (Qeq_bool s 0) eqn:E; [|reflexivity].
  apply Qeq_bool_iff in E. rewrite E in Hs. discriminate.
Qed.

Lemma remove_all_same (h : nat) (l : list nat) :
  (forall x, In x l -> x = h) -> remove Nat.eq_dec h l = [].
Proof.
  induction l as [|x l IH]; intros Hall; [reflexivity|]. simpl.
  destruct (Nat.eq_dec h x) as [E|E].
  - apply IH. intros y Hy. apply Hall. now right.
  - exfalso. apply E. symmetry. apply Hall. now left.
Qed.

Lemma str_append_assoc (a b c : string) : a ++ (b ++ c) = (a ++ b) ++ c.
Proof. induction a as [|x a IH]; simpl; [reflexivity|now rewrite IH]. Qed.

Lemma str_append_empty_r (a : string) : a ++ "" = a.
Proof. induction a as [|x a IH]; simpl; [reflexivity|now rewrite IH]. Qed.

(** [sub] occurs in [s]. *)
Definition contains (s sub : string) : Prop := exists pre post, s = pre ++ sub ++ post.

Lemma contains_here (sub post : string) : contains (sub ++ post) sub.
Proof. exists "", post. reflexivity. Qed.

Lemma contains_after (a s sub : string) : contains s sub -> contains (a ++ s) sub.
Proof.
  intros [pre [post ->]]. exists (a ++ pre), post.
  now rewrite str_append_assoc.
Qed.

Lemma contains_here_nil (sub : string) : contains sub sub.
Proof. exists "", "". simpl. now rewrite str_append_empty_r. Qed.

Ltac find_in_template :=
  first [ apply contains_here | apply contains_after; find_in_template ].

(** The effects one handler call adds issue no request. *)
Definition no_request (es : list effect) : Prop :=
  forall e, In e es -> match e with Request _ _ => False | _ => True end.

Definition grid_dot_ops (d : option pattern) : list drawop :=
  match d with
  | Some k => map (fun p => Disk p 4 "#FF6347") k.(grid).(dots)
  | None => []
  end.

Lemma throttled_false_iff (t : Q) (w : world) :
  0 < w.(speed) ->
  throttled t w = false <-> frameDelay / w.(speed) <= t - w.(lastFrameTime).
Proof.
  intros Hs. unfold throttled. rewrite (adjusted_delay_pos _ Hs). simpl.
  rewrite <- Qle_bool_iff. destruct (Qle_bool _ _); simpl; split; congruence.
Qed.

(** ** C1: one accepted frame while Playing *)

(** C1. For an accepted frame while Playing on the current path [cp]: if
    [currentPointIndex < cp.length - 1] the segment from the current point to
    the next one is drawn, then a highlight disk at its end, and the point
    cursor advances by one (the next frame is scheduled); otherwise the path
    cursor advances by one, the point cursor becomes 0 and nothing is drawn,
    and once all paths are exhausted the loop is Complete (not playing, '▶',
    no frame scheduled).  In particular a path with fewer than 2 points is
    skipped in one accepted frame without drawing. *)
Theorem animate_accepted_frame (t : Q) (w : world) (k : pattern) (cp : path) :
  w.(isPlaying) = true ->
  throttled t w = false ->
  w.(kolamData) = Some k ->
  w.(ctxPresent) = true ->
  nth_error k.(paths) w.(currentPathIndex) = Some cp ->
  let w' := animate t w in
  let i := w.(currentPointIndex) in
  ((Z.of_nat i < Z.of_nat (List.length cp) - 1)%Z ->
     w'.(canvasOps) = (w.(canvasOps) ++
        [Segment (nth i cp (0, 0)%Q) (nth (S i) cp (0, 0)%Q) "#fff" 3 "#FFA500";
         Disk (nth (S i) cp (0, 0)%Q) 6 "#FF6347"])%list
     /\ w'.(currentPointIndex) = S i
     /\ w'.(currentPathIndex) = w.(currentPathIndex)
     /\ w'.(isPlaying) = true
     /\ w'.(pending) = (w.(pending) ++ [w.(nextHandle)])%list)
  /\ (~ (Z.of_nat i < Z.of_nat (List.length cp) - 1)%Z ->
     w'.(canvasOps) = w.(canvasOps)
     /\ w'.(currentPathIndex) = S w.(currentPathIndex)
     /\ w'.(currentPointIndex) = 0%nat
     /\ ((List.length k.(paths) <= S w.(currentPathIndex))%nat ->
           w'.(isPlaying) = false /\ w'.(playIcon) = PlayGlyph
           /\ w'.(pending) = w.(pending))
     /\ ((S w.(currentPathIndex) < List.length k.(paths))%nat ->
           w'.(isPlaying) = true /\ w'.(pending) = (w.(pending) ++ [w.(nextHandle)])%list))
  /\ ((List.length cp < 2)%nat ->
     w'.(canvasOps) = w.(canvasOps)
     /\ w'.(currentPathIndex) = S w.(currentPathIndex)
     /\ w'.(currentPointIndex) = 0%nat).
Proof.
  intros Hp Ht Hk Hc Hcp w' i. subst w' i.
  unfold animate. rewrite Hp, Ht. simpl. rewrite Hk. simpl. rewrite Hcp.
  destruct (Z.ltb_spec (Z.of_nat (currentPointIndex w)) (Z.of_nat (List.length cp) - 1))
    as [Hlt | Hge].
  - rewrite Hc. simpl. split; [|split].
    + intros _. repeat split; simpl; auto.
    + intros Hn. contradiction.
    + intros Hl. exfalso. lia.
  - split; [intros Hn; exfalso; lia|]. split.
    + intros _. destruct (Nat.leb_spec (List.length (paths k)) (S (currentPathIndex w))) as [Hle|Hgt];
        simpl; repeat split; auto; intros; lia.
    + intros _. destruct (Nat.leb_spec (List.length (paths k)) (S (currentPathIndex w)));
        simpl; repeat split; auto.
Qed.

(** Witness of [animate_accepted_frame]: first accepted frame of the sample. *)
Lemma animate_accepted_frame_witness :
  (animate 100 sample_playing).(currentPointIndex) = 1%nat
  /\ (animate 100 sample_playing).(canvasOps)
     = (sample_playing.(canvasOps) ++
        [Segment (0, 0)%Q (10, 0)%Q "#fff" 3 "#FFA500"; Disk (10, 0)%Q 6 "#FF6347"])%list.
Proof.
  destruct (animate_accepted_frame 100 sample_playing sample_pattern [(0, 0)%Q; (10, 0)%Q]
              eq_refl eq_refl eq_refl eq_refl eq_refl) as [Hdraw _].
  assert (Hlt : (Z.of_nat (currentPointIndex sample_playing)
                 < Z.of_nat (List.length [(0, 0)%Q; (10, 0)%Q]) - 1)%Z)
    by (vm_compute; reflexivity).
  destruct (Hdraw Hlt) as [Hc [Hi _]]. split; [exact Hi | exact Hc].
Defined.

(** ** C2: frame-rate throttling *)

(** C2. A frame callback while Playing whose elapsed time since the last
    accepted frame is below [50 / speed] only reschedules itself: cursors,
    baseline [lastFrameTime] and canvas are untouched.  For [speed > 0] a
    frame is accepted exactly when the elapsed time is at least
    [50 / speed], and an accepted frame becomes the new baseline; so
    [50 / speed] is the minimum interval between accepted frames, and
    doubling the speed halves it. *)
Theorem animate_throttle (t : Q) (w : world) :
  w.(isPlaying) = true ->
  (throttled t w = true ->
     animate t w = requestAnimationFrame w
     /\ (animate t w).(currentPathIndex) = w.(currentPathIndex)
     /\ (animate t w).(currentPointIndex) = w.(currentPointIndex)
     /\ (animate t w).(lastFrameTime) = w.(lastFrameTime)
     /\ (animate t w).(canvasOps) = w.(canvasOps))
  /\ (0 < w.(speed) ->
       (throttled t w = false <-> frameDelay / w.(speed) <= t - w.(lastFrameTime))
       /\ (throttled t w = false -> (animate t w).(lastFrameTime) = t))
  /\ (forall s : Q, 0 < s ->
       exists d1 d2, adjusted_delay s = Finite d1
                     /\ adjusted_delay (2 * s) = Finite d2
                     /\ d2 == d1 / 2).
Proof.
  intros Hp. split; [|split].
  - intros Ht. unfold animate. rewrite Hp, Ht. simpl. repeat split.
  - intros Hs. split; [now apply throttled_false_iff|].
    intros Ht. unfold animate. rewrite Hp, Ht. simpl.
    destruct (kolamData w) as [k|]; [|reflexivity]. simpl.
    destruct (nth_error (paths k) (currentPathIndex w)) as [cp|]; [|reflexivity].
    destruct (Z.ltb _ _); [destruct (ctxPresent w); reflexivity|].
    destruct (Nat.leb _ _); reflexivity.
  - intros s Hs. exists (frameDelay / s), (frameDelay / (2 * s)).
    assert (H2 : 0 < 2 * s) by lra.
    rewrite (adjusted_delay_pos _ Hs), (adjusted_delay_pos _ H2).
    repeat split. unfold frameDelay. field. intro E. rewrite E in Hs. lra.
Qed.

(** Witness of [animate_throttle]: at speed 1 a frame 30 time-units after the
    baseline is throttled, one 50 units after it is accepted. *)
Lemma animate_throttle_witness :
  (animate 30 sample_playing).(currentPointIndex) = sample_playing.(currentPointIndex)
  /\ (throttled 50 sample_playing = false <->
      frameDelay / sample_playing.(speed) <= 50 - sample_playing.(lastFrameTime)).
Proof.
  destruct (animate_throttle 30 sample_playing eq_refl) as [Hth _].
  destruct (animate_throttle 50 sample_playing eq_refl) as [_ [Hacc _]].
  split.
  - apply Hth. vm_compute. reflexivity.
  - apply Hacc. vm_compute. reflexivity.
Defined.

(** ** C3: reset *)

(** C3 (counterexample).  After two overlapping uploads, a frame scheduled
    for the first record is no longer the one recorded in [animationId];
    reset cancels only the recorded one and frame 1 stays pending. *)
Lemma resetAnimation_leaves_frame_pending :
  racing_uploads.(pending) = [1%nat; 2%nat]
  /\ racing_uploads.(animationId) = Some 2%nat
  /\ (resetAnimation racing_uploads).(pending) = [1%nat].
Proof. vm_compute. repeat split. Qed.

(** C3 (as the code does it).  Reset cancels the frame recorded in
    [animationId] (read before any state is changed), sets both cursors to
    zero, stops playback with the '▶' glyph and redraws the background and
    the grid dots.  When every pending frame is the recorded one, no frame
    is left pending.  A following play enters [animate] from point 0 of
    path 0. *)
Theorem resetAnimation_spec (w : world) :
  w.(ctxPresent) = true ->
  let w' := resetAnimation w in
  (forall h, w.(animationId) = Some h -> h <> 0%nat ->
     w'.(pending) = remove Nat.eq_dec h w.(pending))
  /\ ((forall h, In h w.(pending) -> w.(animationId) = Some h) ->
      w.(animationId) <> Some 0%nat ->
      w'.(pending) = [])
  /\ w'.(currentPathIndex) = 0%nat
  /\ w'.(currentPointIndex) = 0%nat
  /\ w'.(isPlaying) = false
  /\ w'.(playIcon) = PlayGlyph
  /\ w'.(canvasOps) = (w.(canvasOps) ++ FillRect "#000" :: grid_dot_ops w.(kolamData))%list
  /\ w'.(kolamData) = w.(kolamData)
  /\ togglePlayPause w' = animate 0 (set_playIcon PauseGlyph (set_playing true w'))
  /\ (set_playing true w').(currentPathIndex) = 0%nat
  /\ (set_playing true w').(currentPointIndex) = 0%nat.
Proof.
  intros Hc w'.
  assert (Hpend : pending w' = pending (cancel_tracked w)).
  { subst w'. unfold resetAnimation, initializeCanvas, cancel_tracked.
    destruct (animationId w) as [[|h]|]; simpl; rewrite Hc; simpl;
      unfold drawGridDots; simpl; destruct (kolamData w); reflexivity. }
  split; [|split].
  - intros h Hid Hnz. rewrite Hpend. unfold cancel_tracked. rewrite Hid.
    destruct (Nat.eqb_spec h 0); [contradiction|reflexivity].
  - intros Hall Hnz. rewrite Hpend. unfold cancel_tracked.
    destruct (animationId w) as [h|] eqn:Hid.
    + destruct (Nat.eqb_spec h 0) as [E|E]; [subst; contradiction|].
      simpl. apply remove_all_same. intros x Hx. specialize (Hall x Hx). congruence.
    + destruct (pending w) as [|x l] eqn:Hp; [reflexivity|].
      specialize (Hall x (or_introl eq_refl)). discriminate.
  - subst w'. unfold resetAnimation, initializeCanvas, cancel_tracked.
    destruct (animationId w) as [[|h]|]; simpl; rewrite Hc; simpl;
      unfold drawGridDots; simpl; destruct (kolamData w) eqn:Ek; simpl;
      repeat split; rewrite ?Ek, <- ?app_assoc; reflexivity.
Qed.

(** Witness of [resetAnimation_spec]: resetting the playing sample. *)
Lemma resetAnimation_spec_witness :
  (resetAnimation sample_playing).(pending) = []
  /\ (resetAnimation sample_playing).(currentPointIndex) = 0%nat.
Proof.
  destruct (resetAnimation_spec sample_playing eq_refl) as [_ [Hp [_ [Hi _]]]].
  split; [|exact Hi].
  apply Hp.
  - vm_compute. intros h [<-|[]]. reflexivity.
  - vm_compute. discriminate.
Defined.

(** ** C4: cursor bounds *)

Section CursorBounds.

Variable k : pattern.

Lemma anim_inv_same (w w' : world) :
  w'.(kolamData) = w.(kolamData) ->
  w'.(currentPathIndex) = w.(currentPathIndex) ->
  w'.(currentPointIndex) = w.(currentPointIndex) ->
  anim_inv k w -> anim_inv k w'.
Proof. unfold anim_inv. intros -> -> ->. exact (fun H => H). Qed.

Lemma anim_inv_zero (w : world) :
  w.(kolamData) = Some k ->
  w.(currentPathIndex) = 0%nat -> w.(currentPointIndex) = 0%nat -> anim_inv k w.
Proof.
  intros Hk Hi Hp. split; [exact Hk|]. rewrite Hi, Hp.
  split; [lia|split]; [intros _; reflexivity|intros cp _; now left].
Qed.

Lemma animate_inv (t : Q) (w : world) : anim_inv k w -> anim_inv k (animate t w).
Proof.
  intros Hinv. pose proof Hinv as [Hk [Hle [Hend Hpt]]].
  unfold animate.
  destruct (isPlaying w); [|exact Hinv]. simpl.
  destruct (throttled t w); [now apply (anim_inv_same w)|].
  simpl. rewrite Hk. simpl.
  destruct (nth_error (paths k) (currentPathIndex w)) as [cp|] eqn:Hcp.
  - destruct (Z.ltb_spec (Z.of_nat (currentPointIndex w)) (Z.of_nat (List.length cp) - 1))
      as [Hlt|Hge].
    + destruct (ctxPresent w); simpl; [|now apply (anim_inv_same w)].
      split; [exact Hk|]. split; [exact Hle|]. split.
      * intros E. simpl in E. rewrite E in Hcp.
        assert (nth_error (paths k) (List.length (paths k)) = None)
          by (apply nth_error_None; lia).
        congruence.
      * intros cp' Hcp'. simpl in Hcp'. rewrite Hcp in Hcp'. injection Hcp' as <-.
        right. simpl. lia.
    + assert (Hlt : (currentPathIndex w < List.length (paths k))%nat).
      { apply nth_error_Some. congruence. }
      assert (Hnew : anim_inv k (set_cursors (S (currentPathIndex w)) 0 (set_lastFrameTime t w))).
      { split; [exact Hk|]. simpl. split; [lia|split]; [intros _; reflexivity|].
        intros cp' _. now left. }
      destruct (Nat.leb _ _); [unfold complete|];
        apply (anim_inv_same _ _ eq_refl eq_refl eq_refl Hnew).
  - unfold complete. now apply (anim_inv_same w).
Qed.

Lemma anim_step_inv (w w' : world) : anim_step w w' -> anim_inv k w -> anim_inv k w'.
Proof.
  intros Hs Hinv. destruct Hs as [h t w _|w|w|v w].
  - unfold run_frame. destruct (existsb _ _); [|exact Hinv].
    apply animate_inv. now apply (anim_inv_same w).
  - unfold togglePlayPause. simpl. destruct (negb (isPlaying w)); simpl.
    + apply animate_inv. now apply (anim_inv_same w).
    + unfold cancel_tracked. simpl.
      destruct (animationId w) as [[|h]|]; simpl; now apply (anim_inv_same w).
  - destruct Hinv as [Hk _].
    unfold resetAnimation, initializeCanvas, cancel_tracked.
    destruct (animationId w) as [[|h]|]; simpl;
      (destruct (ctxPresent w); simpl;
       [unfold drawGridDots; simpl; rewrite Hk; simpl|]);
      apply anim_inv_zero; simpl; auto.
  - now apply (anim_inv_same w).
Qed.

Lemma anim_reachable_inv (w0 w : world) :
  anim_reachable w0 w -> anim_inv k w0 -> anim_inv k w.
Proof.
  intros Hr Hinv. induction Hr as [|w w' _ IH Hs]; [exact Hinv|].
  exact (anim_step_inv w w' Hs IH).
Qed.

Lemma initializeCanvas_inv (w : world) :
  w.(kolamData) = Some k -> w.(ctxPresent) = true -> anim_inv k (initializeCanvas w).
Proof.
  intros Hk Hc. unfold initializeCanvas. rewrite Hc. simpl.
  unfold drawGridDots. simpl. rewrite Hk. apply anim_inv_zero; simpl; auto.
Qed.

End CursorBounds.

(** C4 (counterexample).  With an empty path, the cursors reset by
    [initializeCanvas] already point at index 0 of a path whose last index
    is -1. *)
Lemma cursor_bounds_empty_path :
  anim_reachable empty_path_start empty_path_start
  /\ ~ cursor_bounds_as_stated empty_path_pattern empty_path_start.
Proof.
  split; [constructor|].
  intros [_ H]. specialize (H [] eq_refl). simpl in H. lia.
Qed.

(** C4 (as the code keeps it).  From the state set up by [initializeCanvas]
    for a record, through any sequence of frames, play/pause toggles, resets
    and speed changes: [currentPathIndex] stays in [0, paths.length], it is
    [paths.length] only with [currentPointIndex = 0], and on a path
    [currentPointIndex] stays in [0, max(0, length - 1)]. *)
Theorem cursor_bounds (k : pattern) (w w' : world) :
  w.(kolamData) = Some k ->
  w.(ctxPresent) = true ->
  anim_reachable (initializeCanvas w) w' ->
  (w'.(currentPathIndex) <= List.length k.(paths))%nat
  /\ (w'.(currentPathIndex) = List.length k.(paths) -> w'.(currentPointIndex) = 0%nat)
  /\ (forall cp, nth_error k.(paths) w'.(currentPathIndex) = Some cp ->
        (0 <= Z.of_nat w'.(currentPointIndex) <= Z.max 0 (Z.of_nat (List.length cp) - 1))%Z).
Proof.
  intros Hk Hc Hr.
  destruct (anim_reachable_inv k _ _ Hr (initializeCanvas_inv k w Hk Hc))
    as [_ [Hle [Hend Hpt]]].
  split; [exact Hle|split; [exact Hend|]].
  intros cp Hcp. destruct (Hpt cp Hcp) as [E|E]; lia.
Qed.

(** Witness of [cursor_bounds]: play, then one accepted frame of the sample. *)
Lemma cursor_bounds_witness :
  ((run_frame 1 100 (togglePlayPause (initializeCanvas
     (set_kolamData (Some sample_pattern) (initial_world true))))).(currentPathIndex)
  <= List.length sample_pattern.(paths))%nat.
Proof.
  destruct (cursor_bounds sample_pattern
              (set_kolamData (Some sample_pattern) (initial_world true))
              (run_frame 1 100 (togglePlayPause (initializeCanvas
                 (set_kolamData (Some sample_pattern) (initial_world true)))))
              eq_refl eq_refl) as [H _].
  - eapply AnimNext; [eapply AnimNext; [apply AnimStart|apply AnimToggle]|].
    apply AnimFrame. vm_compute. left. reflexivity.
  - exact H.
Defined.

(** ** C5: application-level upload failure *)

(** C5. When [/analyze] answers [{success: false, error: msg}], the user gets
    the blocking alert ['Error analyzing image: ' + msg], the busy banner is
    hidden, no further request is issued, and the record and the animation
    are unchanged.  The record is assigned only on a success response. *)
Theorem upload_failure (w : world) (result : analyze_result) (msg : string) :
  result.(a_success) = false ->
  result.(a_error) = Some msg ->
  let w' := handleFileUpload_response (Some result) w in
  w'.(effects) = (w.(effects) ++ [Alert ("Error analyzing image: " ++ msg)])%list
  /\ w'.(uploadStatusHidden) = true
  /\ w'.(kolamData) = w.(kolamData)
  /\ w'.(isPlaying) = w.(isPlaying)
  /\ w'.(currentPathIndex) = w.(currentPathIndex)
  /\ w'.(currentPointIndex) = w.(currentPointIndex)
  /\ w'.(canvasOps) = w.(canvasOps)
  /\ w'.(resultsActive) = w.(resultsActive)
  /\ (forall r, (handleFileUpload_response r w).(kolamData) <> w.(kolamData) ->
        exists res, r = Some res /\ res.(a_success) = true).
Proof.
  intros Hs He w'. subst w'. simpl. rewrite Hs, He. simpl.
  repeat split; try reflexivity.
  intros [res|] Hne.
  - destruct (a_success res) eqn:E; [now exists res|].
    exfalso. apply Hne. simpl. rewrite E. reflexivity.
  - exfalso. apply Hne. reflexivity.
Qed.

(** Witness of [upload_failure]. *)
Lemma upload_failure_witness :
  (handleFileUpload_response (Some (mkAnalyzeResult false None (Some "no pattern")))
     sample_playing).(kolamData) = sample_playing.(kolamData).
Proof.
  destruct (upload_failure sample_playing (mkAnalyzeResult false None (Some "no pattern"))
              "no pattern" eq_refl eq_refl) as [_ [_ [Hk _]]].
  exact Hk.
Defined.

(** ** C6: play/pause toggle *)

(** C6 (counterexample).  After the sample has played to its end, a play
    click sets [isPlaying] (icon '⏸', a frame scheduled). *)
Lemma toggle_at_end_plays :
  sample_complete.(currentPathIndex) = List.length sample_pattern.(paths)
  /\ sample_complete.(isPlaying) = false
  /\ (togglePlayPause sample_complete).(isPlaying) = true
  /\ (togglePlayPause sample_complete).(playIcon) = PauseGlyph.
Proof. vm_compute. repeat split. Qed.

(** C6 (as the code does it).  The toggle always flips [isPlaying].  From
    Paused it shows '⏸' and runs [animate(0)] at once, which schedules the
    next frame when throttled; from Playing it shows '▶' and cancels the
    frame recorded in [animationId], leaving the cursors alone.  With the
    cursors at the end, Playing lasts until the next accepted frame, which
    returns to Paused ('▶') without moving the cursors or scheduling. *)
Theorem togglePlayPause_spec (w : world) :
  (w.(isPlaying) = false ->
     togglePlayPause w = animate 0 (set_playIcon PauseGlyph (set_playing true w))
     /\ (throttled 0 w = true ->
           (togglePlayPause w).(isPlaying) = true
           /\ (togglePlayPause w).(playIcon) = PauseGlyph
           /\ (togglePlayPause w).(pending) = (w.(pending) ++ [w.(nextHandle)])%list))
  /\ (w.(isPlaying) = true ->
     togglePlayPause w = cancel_tracked (set_playIcon PlayGlyph (set_playing false w))
     /\ (togglePlayPause w).(isPlaying) = false
     /\ (togglePlayPause w).(playIcon) = PlayGlyph
     /\ (togglePlayPause w).(currentPathIndex) = w.(currentPathIndex)
     /\ (togglePlayPause w).(currentPointIndex) = w.(currentPointIndex))
  /\ (forall (k : pattern) (v : world) (t : Q),
        v.(kolamData) = Some k ->
        (List.length k.(paths) <= v.(currentPathIndex))%nat ->
        v.(isPlaying) = true -> throttled t v = false ->
        (animate t v).(isPlaying) = false
        /\ (animate t v).(playIcon) = PlayGlyph
        /\ (animate t v).(currentPathIndex) = v.(currentPathIndex)
        /\ (animate t v).(currentPointIndex) = v.(currentPointIndex)
        /\ (animate t v).(pending) = v.(pending)).
Proof.
  split; [|split].
  - intros Hp. unfold togglePlayPause. rewrite Hp. simpl. split; [reflexivity|].
    intros Ht. unfold animate. simpl.
    assert (E : throttled 0 (set_playIcon PauseGlyph (set_playing true w)) = throttled 0 w)
      by reflexivity.
    rewrite E, Ht. simpl. repeat split.
  - intros Hp. unfold togglePlayPause. rewrite Hp. simpl.
    split; [reflexivity|].
    unfold cancel_tracked. simpl.
    destruct (animationId w) as [[|h]|]; simpl; repeat split.
  - intros k v t Hk Hend Hp Ht. unfold animate. rewrite Hp, Ht. simpl. rewrite Hk. simpl.
    assert (Hn : nth_error (paths k) (currentPathIndex v) = None)
      by (apply nth_error_None; exact Hend).
    rewrite Hn. simpl. repeat split.
Qed.

(** Witness of [togglePlayPause_spec]: play at the end of the sample, then the
    next accepted frame. *)
Lemma togglePlayPause_spec_witness :
  (animate 400 (togglePlayPause sample_complete)).(isPlaying) = false.
Proof.
  destruct (togglePlayPause_spec sample_complete) as [_ [_ Hend]].
  destruct (Hend sample_pattern (togglePlayPause sample_complete) 400)
    as [H _]; [vm_compute; reflexivity .. | exact H].
Defined.

(** ** C7: non-positive speed *)

(** C7 (counterexample).  At speed -1 the throttle threshold is -50 and the
    next frame of the playing sample is accepted: the point cursor moves. *)
Lemma negative_speed_advances :
  sample_negative_speed.(speed) = -1
  /\ sample_negative_speed.(currentPointIndex) = 0%nat
  /\ (run_frame 1 100 sample_negative_speed).(currentPointIndex) = 1%nat.
Proof. vm_compute. repeat split. Qed.

(** C7 (as the code does it).  The speed slider stores [parseFloat] of its
    value as is.  At speed 0 the threshold [50 / 0] is +Infinity: every frame
    callback is throttled and rescheduled, so the cursors never move.  At a
    negative speed the threshold is negative: every frame at or after the
    baseline is accepted. *)
Theorem speed_precondition (w : world) (t v : Q) :
  (onSpeedInput v w).(speed) = v
  /\ (w.(speed) == 0 ->
        throttled t w = true
        /\ (animate t w).(currentPathIndex) = w.(currentPathIndex)
        /\ (animate t w).(currentPointIndex) = w.(currentPointIndex))
  /\ (w.(speed) < 0 -> w.(lastFrameTime) <= t -> throttled t w = false).
Proof.
  split; [reflexivity|split].
  - intros Hs. unfold throttled, adjusted_delay.
    assert (E : Qeq_bool (speed w) 0 = true) by (now apply Qeq_bool_iff).
    rewrite E. simpl. split; [reflexivity|].
    unfold animate. destruct (isPlaying w); simpl; [|split; reflexivity].
    unfold throttled, adjusted_delay. rewrite E. simpl. split; reflexivity.
  - intros Hs Ht. unfold throttled, adjusted_delay.
    assert (E : Qeq_bool (speed w) 0 = false).
    { destruct (Qeq_bool (speed w) 0) eqn:E; [|reflexivity].
      apply Qeq_bool_iff in E. lra. }
    rewrite E. simpl.
    assert (Hd : frameDelay / speed w <= t - lastFrameTime w).
    { assert (Hx : frameDelay / speed w * speed w == 50).
      { unfold frameDelay. field. intro Z0. rewrite Z0 in Hs. lra. }
      nra. }
    apply Qle_bool_iff in Hd. rewrite Hd. reflexivity.
Qed.

(** Witness of [speed_precondition]: the sample paused at speed 0. *)
Lemma speed_precondition_witness :
  throttled 1000 (onSpeedInput 0 sample_playing) = true.
Proof.
  destruct (speed_precondition (onSpeedInput 0 sample_playing) 1000 0) as [_ [H0 _]].
  apply H0. vm_compute. reflexivity.
Defined.

(** ** C8: SVG export *)

(** C8 (counterexample).  The displayed sample is exported, the app is reset
    before the response, and the server then answers with success: no file is
    downloaded, the user is told 'Failed to export SVG'. *)
Lemma export_success_after_reset_no_download :
  export_then_reset_app.(kolamData) = None
  /\ (exportSVG_response (Some (mkSvgResult true (Some "<svg/>") None))
        export_then_reset_app).(effects)
     = (export_then_reset_app.(effects) ++
        [ConsoleError "Export error:"; Alert "Failed to export SVG"])%list.
Proof. vm_compute. split; reflexivity. Qed.

(** C8 (as the code does it).  With a live record [k], [exportSVG] sends one
    JSON request whose body has exactly the fields [paths] and [grid_dots],
    holding [k]'s paths and grid dots.  When the response is handled, the
    shared record is read again: on success with a live record [k'] the file
    [kolam_<k'.id>.svg] with the returned markup is downloaded (and a success
    alert shown); on success with no live record, or on a transport failure,
    the alert 'Failed to export SVG' is shown without download; on an
    application-level failure the alert carries the server's error string
    and nothing is downloaded.  No handler issues a further request. *)
Theorem exportSVG_spec (w : world) (k : pattern) :
  w.(kolamData) = Some k ->
  exportSVG w = emit [Request "http://localhost:5000/export-svg" (JsonBody (export_body k))] w
  /\ export_body k = JObj [("paths", JArr (map json_of_points k.(paths)));
                           ("grid_dots", json_of_points k.(grid).(dots))]
  /\ (forall (v : world) (k' : pattern) (svg : string) (err : option string),
        v.(kolamData) = Some k' ->
        exportSVG_response (Some (mkSvgResult true (Some svg) err)) v
        = emit [Download ("kolam_" ++ k'.(id) ++ ".svg") svg "image/svg+xml";
                Alert "SVG exported successfully!"] v)
  /\ (forall (v : world) (svg err : option string),
        v.(kolamData) = None ->
        exportSVG_response (Some (mkSvgResult true svg err)) v
        = emit [ConsoleError "Export error:"; Alert "Failed to export SVG"] v)
  /\ (forall (v : world) (svg : option string) (msg : string),
        let v' := exportSVG_response (Some (mkSvgResult false svg (Some msg))) v in
        v' = emit [Alert ("Export failed: " ++ msg)] v
        /\ contains ("Export failed: " ++ msg) msg)
  /\ (forall v : world,
        exportSVG_response None v
        = emit [ConsoleError "Export error:"; Alert "Failed to export SVG"] v)
  /\ no_request [ConsoleError "Export error:"; Alert "Failed to export SVG"]
  /\ (forall svg name msg, no_request [Download name svg "image/svg+xml";
                                       Alert "SVG exported successfully!"; Alert msg]).
Proof.
  intros Hk. split; [unfold exportSVG; now rewrite Hk|].
  split; [reflexivity|]. split; [|split; [|split; [|split; [|split]]]].
  - intros v k' svg err Hv. unfold exportSVG_response. simpl. now rewrite Hv.
  - intros v svg err Hv. unfold exportSVG_response. simpl. now rewrite Hv.
  - intros v svg msg v'. split; [reflexivity|].
    apply contains_after, contains_here_nil.
  - reflexivity.
  - intros e [<-|[<-|[]]]; exact I.
  - intros svg name msg e [<-|[<-|[<-|[]]]]; exact I.
Qed.

(** Witness of [exportSVG_spec]: exporting the playing sample. *)
Lemma exportSVG_spec_witness :
  (exportSVG sample_playing).(effects)
  = (sample_playing.(effects) ++
     [Request "http://localhost:5000/export-svg" (JsonBody (export_body sample_pattern))])%list.
Proof.
  destruct (exportSVG_spec sample_playing sample_pattern eq_refl) as [H _].
  rewrite H. reflexivity.
Defined.

(** ** C9: equation export *)

(** C9. With a live record, [saveEquation] is local (it adds a download and
    an alert, no request) and downloads [kolam_equations_<id>.txt] whose
    text contains [x_function], [y_function], both domain endpoints and
    [r_squared] as they are; with [id = "abc123"] the file is named
    [kolam_equations_abc123.txt]. *)
Theorem saveEquation_spec (now : string) (w : world) (k : pattern) :
  w.(kolamData) = Some k ->
  saveEquation now w
  = emit [Download ("kolam_equations_" ++ k.(id) ++ ".txt") (equationData now k) "text/plain";
          Alert "Equation file saved successfully!"] w
  /\ no_request [Download ("kolam_equations_" ++ k.(id) ++ ".txt") (equationData now k) "text/plain";
                 Alert "Equation file saved successfully!"]
  /\ contains (equationData now k) k.(equations).(x_function)
  /\ contains (equationData now k) k.(equations).(y_function)
  /\ contains (equationData now k) (fst k.(equations).(domain))
  /\ contains (equationData now k) (snd k.(equations).(domain))
  /\ contains (equationData now k) k.(equations).(r_squared)
  /\ (k.(id) = "abc123" ->
        "kolam_equations_" ++ k.(id) ++ ".txt" = "kolam_equations_abc123.txt").
Proof.
  intros Hk. split; [unfold saveEquation; now rewrite Hk|].
  split; [intros e [<-|[<-|[]]]; exact I|].
  unfold equationData.
  repeat split; try find_in_template.
  intros ->. reflexivity.
Qed.

(** Witness of [saveEquation_spec]: the sample record, id "abc123". *)
Lemma saveEquation_spec_witness :
  (saveEquation "1/1/2026, 12:00:00 PM" sample_playing).(effects)
  = (sample_playing.(effects) ++
     [Download "kolam_equations_abc123.txt"
        (equationData "1/1/2026, 12:00:00 PM" sample_pattern) "text/plain";
      Alert "Equation file saved successfully!"])%list.
Proof.
  destruct (saveEquation_spec "1/1/2026, 12:00:00 PM" sample_playing sample_pattern eq_refl)
    as [H _].
  rewrite H. reflexivity.
Defined.

(** ** C10: exports without a record *)

(** C10. With no live record both exports return at once: the world (state,
    canvas, effects, requests) is unchanged. *)
Theorem exports_without_record (now : string) (w : world) :
  w.(kolamData) = None ->
  exportSVG w = w /\ saveEquation now w = w.
Proof. intros Hk. unfold exportSVG, saveEquation. now rewrite Hk. Qed.

(** Witness of [exports_without_record]: the page before any upload. *)
Lemma exports_without_record_witness :
  exportSVG (initial_world true) = initial_world true
  /\ saveEquation "now" (initial_world true) = initial_world true.
Proof. apply (exports_without_record "now" (initial_world true)). reflexivity. Defined.

(** ** Whole playback *)




Section Playback.

Variable k : pattern.
Variable d : Q.









End Playback.

(** Extra: a whole playback. *)



(** ** Frame handle bookkeeping *)













(** ** Upload entry points and responses *)

(** Extra: the drop and file-picker listeners.  A drop of files whose first
    file's type does not start with 'image/', or an empty drop or pick,
    leaves the page unchanged (no request, banner untouched); otherwise the
    first file alone is uploaded: the banner is shown and exactly one
    multipart request to /analyze carrying it is issued. *)
Theorem upload_entry_points (f : file_t) (fs : list file_t) (w : world) :
  onDrop [] w = w
  /\ onFileInputChange [] w = w
  /\ (String.prefix "image/" f.(file_type) = false -> onDrop (f :: fs) w = w)
  /\ (String.prefix "image/" f.(file_type) = true ->
        onDrop (f :: fs) w = onFileInputChange (f :: fs) w)
  /\ (onFileInputChange (f :: fs) w).(effects)
     = (w.(effects) ++ [Request "http://localhost:5000/analyze" (FormImage f.(file_name))])%list
  /\ (onFileInputChange (f :: fs) w).(uploadStatusHidden) = false
  /\ (onFileInputChange (f :: fs) w).(kolamData) = w.(kolamData)
  /\ (onFileInputChange (f :: fs) w).(pending) = w.(pending)
  /\ (onFileInputChange (f :: fs) w).(canvasOps) = w.(canvasOps).
Proof.
  split; [reflexivity|split; [reflexivity|split; [|split]]].
  - intros E. simpl. now rewrite E.
  - intros E. simpl. now rewrite E.
  - repeat split.
Qed.

(** Witness of [upload_entry_points]: a text file dropped is ignored. *)
Lemma upload_entry_points_witness :
  onDrop [mkFile "notes.txt" "text/plain"] sample_playing = sample_playing.
Proof.
  exact (proj1 (proj2 (proj2 (upload_entry_points (mkFile "notes.txt" "text/plain") []
                                 sample_playing))) eq_refl).
Defined.

(** Extra: a successful analysis with a pattern.  The record becomes [p],
    the results screen is shown, no alert or request is issued, the cursors
    are reset to [(0, 0)], playback is paused with '▶', and the canvas gets
    the black background and one radius-4 disk per grid dot, in order.  The
    busy banner is not hidden by this path, and no scheduled frame is
    cancelled. *)
Theorem upload_success (w : world) (p : pattern) (err : option string) :
  w.(ctxPresent) = true ->
  let w' := handleFileUpload_response (Some (mkAnalyzeResult true (Some p) err)) w in
  w'.(kolamData) = Some p
  /\ w'.(resultsActive) = true
  /\ w'.(effects) = w.(effects)
  /\ w'.(currentPathIndex) = 0%nat /\ w'.(currentPointIndex) = 0%nat
  /\ w'.(isPlaying) = false /\ w'.(playIcon) = PlayGlyph
  /\ w'.(canvasOps)
     = (w.(canvasOps) ++ FillRect "#000" :: map (fun d => Disk d 4 "#FF6347") p.(grid).(dots))%list
  /\ w'.(uploadStatusHidden) = w.(uploadStatusHidden)
  /\ w'.(pending) = w.(pending).
Proof.
  intros Hc w'. subst w'. simpl. unfold initializeCanvas, drawGridDots. simpl.
  rewrite Hc. simpl. repeat split. now rewrite <- app_assoc.
Qed.

(** Witness of [upload_success]: the sample record arriving on a fresh page. *)
Lemma upload_success_witness :
  (handleFileUpload_response (Some sample_ok) (initial_world true)).(kolamData)
  = Some sample_pattern.
Proof. exact (proj1 (upload_success (initial_world true) sample_pattern None eq_refl)). Defined.

(** Extra: the other outcomes of an upload.  A success answer without
    [data] stores no record ([undefined]), switches to the results screen,
    then fails inside the [try]: the user gets the connection-failure alert
    and the banner is hidden.  A transport or parse failure gives the same
    alert and hides the banner, keeping the record.  Neither path draws or
    issues a request. *)
Theorem upload_other_outcomes (w : world) (err : option string) :
  let w1 := handleFileUpload_response (Some (mkAnalyzeResult true None err)) w in
  let w2 := handleFileUpload_response None w in
  w1.(kolamData) = None
  /\ w1.(resultsActive) = true
  /\ w1.(uploadStatusHidden) = true
  /\ w1.(effects) = (w.(effects) ++
       [ConsoleError "Upload error:";
        Alert "Failed to connect to server. Make sure the Flask backend is running on port 5000."])%list
  /\ w1.(canvasOps) = w.(canvasOps)
  /\ w2.(kolamData) = w.(kolamData)
  /\ w2.(resultsActive) = w.(resultsActive)
  /\ w2.(uploadStatusHidden) = true
  /\ w2.(effects) = w1.(effects)
  /\ w2.(canvasOps) = w.(canvasOps).
Proof. repeat split. Qed.

(** ** Back to the upload screen *)

(** Extra: [resetApp] cancels the recorded frame, stops playback, zeroes
    the cursors, drops the record, shows the upload screen with the banner
    hidden, and neither draws nor alerts; the play/pause icon is left as it
    was.  Afterwards both exports do nothing, and a stale frame finds
    playback stopped and changes nothing but its own handle. *)
Theorem resetApp_spec (w : world) (now : string) (h : nat) (t : Q) :
  let w' := resetApp w in
  w'.(kolamData) = None
  /\ w'.(isPlaying) = false
  /\ w'.(currentPathIndex) = 0%nat /\ w'.(currentPointIndex) = 0%nat
  /\ w'.(resultsActive) = false /\ w'.(uploadStatusHidden) = true
  /\ w'.(playIcon) = w.(playIcon)
  /\ w'.(canvasOps) = w.(canvasOps) /\ w'.(effects) = w.(effects)
  /\ w'.(pending) = (cancel_tracked w).(pending)
  /\ exportSVG w' = w' /\ saveEquation now w' = w'
  /\ run_frame h t w' = (if existsb (Nat.eqb h) w'.(pending) then remove_pending h w' else w').
Proof.
  intros w'.
  assert (Hk : kolamData w' = None)
    by (subst w'; unfold resetApp, cancel_tracked; destruct (animationId w) as [[|?]|]; reflexivity).
  assert (Hp : isPlaying w' = false)
    by (subst w'; unfold resetApp, cancel_tracked; destruct (animationId w) as [[|?]|]; reflexivity).
  split; [exact Hk|split; [exact Hp|]].
  split; [|split; [|split; [|split; [|split; [|split; [|split; [|split; [|split; [|split]]]]]]]]];
    try (subst w'; unfold resetApp, cancel_tracked;
         destruct (animationId w) as [[|?]|]; reflexivity).
  all: try (unfold exportSVG, saveEquation; now rewrite Hk).
  all: unfold run_frame; destruct (existsb _ _); [|reflexivity];
    unfold animate; simpl; now rewrite Hp.
Qed.

(** ** The animation loop's footprint *)

(** Extra: a frame callback never touches the record, the speed, the screens,
    the banner or the user-visible effects (no alert, request or download).
    A callback running while playback is stopped (a stale frame after pause,
    reset, completion or a new record) only consumes its own handle. *)
Theorem frame_footprint (h : nat) (t : Q) (w : world) :
  let w' := run_frame h t w in
  w'.(kolamData) = w.(kolamData) /\ w'.(speed) = w.(speed)
  /\ w'.(resultsActive) = w.(resultsActive)
  /\ w'.(uploadStatusHidden) = w.(uploadStatusHidden)
  /\ w'.(effects) = w.(effects)
  /\ (w.(isPlaying) = false ->
        w' = if existsb (Nat.eqb h) w.(pending) then remove_pending h w else w).
Proof.
  intros w'. subst w'. unfold run_frame.
  destruct (existsb _ _); [|repeat split; reflexivity].
  unfold animate. simpl.
  destruct (isPlaying w) eqn:Hp; simpl; [|repeat split; reflexivity].
  destruct (throttled t _); [repeat split; simpl; try reflexivity; intros; congruence|].
  destruct (kolamData w) as [k|] eqn:Ek; simpl; [|repeat split; simpl; try reflexivity; intros; congruence].
  destruct (nth_error (paths k) (currentPathIndex w)); [|repeat split; simpl; try reflexivity; intros; congruence].
  destruct (Z.ltb _ _); [destruct (ctxPresent w)|destruct (Nat.leb _ _)];
    simpl; repeat split; simpl; try reflexivity; intros; congruence.
Qed.

(** Witness of [frame_footprint]: the orphan frame of the C3 race, run after
    the reset. *)
Lemma frame_footprint_witness :
  run_frame 1 500 (resetAnimation racing_uploads)
  = remove_pending 1 (resetAnimation racing_uploads).
Proof.
  exact (proj2 (proj2 (proj2 (proj2 (proj2 (frame_footprint 1 500
           (resetAnimation racing_uploads)))))) eq_refl).
Defined.

(** ** Play then pause *)

(** Extra: with the handle bookkeeping of any reachable page, a play click
    whose immediate frame call is throttled, followed by a pause click before
    any frame runs, returns to Paused ('▶') with exactly the pending frames
    of before: the frame scheduled by play is cancelled, cursors and canvas
    are untouched. *)
Theorem play_then_pause (w : world) :
  handles_ok w -> w.(isPlaying) = false -> throttled 0 w = true ->
  let w' := togglePlayPause (togglePlayPause w) in
  w'.(isPlaying) = false /\ w'.(playIcon) = PlayGlyph
  /\ w'.(pending) = w.(pending)
  /\ w'.(currentPathIndex) = w.(currentPathIndex)
  /\ w'.(currentPointIndex) = w.(currentPointIndex)
  /\ w'.(canvasOps) = w.(canvasOps).
Proof.
  intros (H1 & _ & Hp & _) Hpl Ht w'. subst w'.
  assert (E1 : togglePlayPause w
               = requestAnimationFrame (set_playIcon PauseGlyph (set_playing true w))).
  { unfold togglePlayPause. rewrite Hpl. simpl. unfold animate. simpl.
    change (throttled 0 (set_playIcon PauseGlyph (set_playing true w))) with (throttled 0 w).
    now rewrite Ht. }
  rewrite E1. unfold togglePlayPause, cancel_tracked. simpl.
  destruct (Nat.eqb_spec (nextHandle w) 0) as [Z0|_]; [lia|]. simpl.
  repeat split.
  rewrite remove_app. simpl. destruct (Nat.eq_dec (nextHandle w) (nextHandle w)); [|congruence].
  rewrite app_nil_r. apply notin_remove. intros Hin. specialize (Hp _ Hin). lia.
Qed.

(** Witness of [play_then_pause]: the freshly displayed sample. *)
Lemma play_then_pause_witness :
  (togglePlayPause (togglePlayPause
     (handleFileUpload_response (Some sample_ok) (initial_world true)))).(pending)
  = (handleFileUpload_response (Some sample_ok) (initial_world true)).(pending).
Proof.
  refine (proj1 (proj2 (proj2 (play_then_pause
    (handleFileUpload_response (Some sample_ok) (initial_world true)) _ eq_refl eq_refl)))).
  vm_compute. split; [lia|split; [constructor|split; [intros h []|discriminate]]].
Defined.
